(** * Pyckson: parsers and model builder

    A shallow embedding of [pyckson/parsers/base.py] and
    [pyckson/model/builder.py], with the properties of the parser
    library and of the model builder stated over it.

    Python exceptions are modelled by the error monad [result]; a
    parser object is a record holding its optional [cls] attribute and
    its [parse] method; the lookup table of the case-insensitive enum
    parser is a finite map. *)

From Stdlib Require Import ZArith Ascii String.
From Corelib Require Import PrimFloat.
From stdpp Require Import base option list strings gmap.

Local Open Scope string_scope.
Local Open Scope list_scope.
Set Warnings "-register-all".

(** ** Python values and classes *)

(** An [Enum] subclass: its [__name__] and its [__members__] mapping in
    definition order.  Each declared name is mapped to the [name] of the
    member it denotes; a declared name that differs from it is an
    alias. *)
Record EnumClass := mkEnum {
  enum_name : string;
  enum_members : list (string * string)
}.

(** The classes that occur as [cls] of a parser or in an annotation. *)
Inductive pyclass :=
| c_str | c_int | c_float | c_bool
| c_list | c_dict | c_NoneType
| c_Enum                       (* enum.Enum itself *)
| c_enum (e : EnumClass)       (* a subclass of Enum *)
| c_class (n : string).        (* any other user class *)

(** Decoded JSON trees, together with the enum members that the enum
    parsers return. *)
Inductive pyvalue :=
| VNone
| VBool (b : bool)
| VInt (n : Z)
| VFloat (f : float)
| VStr (s : string)
| VList (items : list pyvalue)
| VDict (items : list (string * pyvalue))
| VEnum (e : EnumClass) (member : string).

#[global] Instance EnumClass_eq_dec : EqDecision EnumClass.
Proof. solve_decision. Defined.

(** [cls.__name__] *)
Definition class_name (c : pyclass) : string :=
  match c with
  | c_str => "str" | c_int => "int" | c_float => "float" | c_bool => "bool"
  | c_list => "list" | c_dict => "dict" | c_NoneType => "NoneType"
  | c_Enum => "Enum"
  | c_enum e => enum_name e
  | c_class n => n
  end.

(** [isinstance(v, c)]: [bool] is a subclass of [int], and every enum
    class is a subclass of [Enum]. *)
Definition isinstance (v : pyvalue) (c : pyclass) : bool :=
  match v, c with
  | VNone, c_NoneType => true
  | VBool _, c_bool => true
  | VBool _, c_int => true
  | VInt _, c_int => true
  | VFloat _, c_float => true
  | VStr _, c_str => true
  | VList _, c_list => true
  | VDict _, c_dict => true
  | VEnum _ _, c_Enum => true
  | VEnum e _, c_enum e' => bool_decide (e = e')
  | _, _ => false
  end.

(** ** Exceptions *)

(** A formatted message: literal text and interpolated values ([Str v]
    stands for the text that [str(v)] gives). *)
Inductive fragment :=
| Lit (s : string)
| Str (v : pyvalue).

Definition message := list fragment.

Inductive exn :=
| ParserException (msg : message)
| TypeError (msg : message)
| ValueError (msg : message)
| AttributeError (msg : message)
| KeyError (msg : message)
| IndexError (msg : message).

Inductive result (A : Type) :=
| Ok (a : A)
| Raise (e : exn).
Arguments Ok {A} a.
Arguments Raise {A} e.

#[global] Instance result_bind : MBind result := λ A B k r,
  match r with
  | Ok a => k a
  | Raise e => Raise e
  end.
#[global] Instance result_ret : MRet result := @Ok.

(** A comprehension [[f(item) for item in items]]: the items are
    converted from left to right and the first exception ends it. *)
Fixpoint comprehension {A B} (f : A -> result B) (items : list A) : result (list B) :=
  match items with
  | [] => Ok []
  | item :: rest =>
      y ← f item;
      ys ← comprehension f rest;
      Ok (y :: ys)
  end.

(** The double-quote character of the messages. *)
Definition dquote : string := String (Ascii false true false false false true false false) EmptyString.

(** ** The parsers of [pyckson/parsers/base.py] *)

(** A parser object: [cls] is [Some c] when the object has a [cls]
    attribute ([hasattr(parser, 'cls')]) and [parse] is its method. *)
Record Parser := mkParser {
  cls : option pyclass;
  parse : pyvalue -> result pyvalue
}.

Definition BasicParser : Parser :=
  {| cls := None;
     parse := fun json_value => Ok json_value |}.

(** [self.cls(json_value)], for a [json_value] that is an instance of
    [self.cls]: the builtin scalar and container constructors give back
    (a copy of) their argument, [int] of a [bool] gives 0 or 1, an enum
    class called on one of its members gives this member, [Enum] itself
    has no members and [NoneType] takes no argument.  The last branch
    holds the pairs where the value is no instance of the class, which
    the guard of [BasicParserWithCast.parse] keeps away. *)
Definition call_class (c : pyclass) (v : pyvalue) : result pyvalue :=
  match c, v with
  | c_str, VStr s => Ok (VStr s)
  | c_int, VInt n => Ok (VInt n)
  | c_int, VBool b => Ok (VInt (if b then 1 else 0))
  | c_float, VFloat f => Ok (VFloat f)
  | c_bool, VBool b => Ok (VBool b)
  | c_list, VList items => Ok (VList items)
  | c_dict, VDict items => Ok (VDict items)
  | c_enum e, VEnum e' m =>
      if bool_decide (e = e') then Ok (VEnum e' m)
      else Raise (ValueError [Str v; Lit " is not a valid "; Lit (enum_name e)])
  | c_Enum, VEnum _ _ => Raise (ValueError [Str v; Lit " is not a valid Enum"])
  | c_NoneType, _ => Raise (TypeError [Lit "NoneType takes no arguments"])
  | _, _ => Raise (TypeError [Lit "cannot construct "; Lit (class_name c); Lit " from "; Str v])
  end.

Definition BasicParserWithCast (cls : pyclass) : Parser :=
  {| cls := Some cls;
     parse := fun json_value =>
       if negb (isinstance json_value cls) then
         Raise (ParserException [Lit dquote; Str json_value; Lit dquote;
                                 Lit " is supposed to be a "; Lit (class_name cls); Lit "."])
       else call_class cls json_value |}.

Definition ListParser (sub_parser : Parser) : Parser :=
  {| cls := Some c_list;
     parse := fun json_value =>
       if negb (isinstance json_value c_list) then
         Raise (ParserException [Lit dquote; Str json_value; Lit dquote;
                                 Lit " is supposed to be a list."])
       else
         match json_value with
         | VList items =>
             parsed ← comprehension (parse sub_parser) items;
             Ok (VList parsed)
         | _ => Raise (TypeError [Lit "object is not iterable"])
         end |}.

(** [value in cls.__members__]: a lookup by hash, which an unhashable
    value refuses; the keys are strings. *)
Definition in_members (value : pyvalue) (e : EnumClass) : result bool :=
  match value with
  | VStr s => Ok (bool_decide (s ∈ (enum_members e).*1))
  | VList _ => Raise (TypeError [Lit "unhashable type: 'list'"])
  | VDict _ => Raise (TypeError [Lit "unhashable type: 'dict'"])
  | _ => Ok false
  end.

(** [d[key]] on an ordered mapping with string keys. *)
Fixpoint getitem {A} (d : list (string * A)) (key : string) : option A :=
  match d with
  | [] => None
  | (k, a) :: d' => if bool_decide (k = key) then Some a else getitem d' key
  end.

(** [cls[value]] *)
Definition enum_getitem (e : EnumClass) (value : pyvalue) : result pyvalue :=
  match value with
  | VStr s =>
      match getitem (enum_members e) s with
      | Some m => Ok (VEnum e m)
      | None => Raise (KeyError [Str value])
      end
  | _ => Raise (KeyError [Str value])
  end.

Definition DefaultEnumParser (cls : EnumClass) : Parser :=
  {| cls := Some (c_enum cls);
     parse := fun value =>
       found ← in_members value cls;
       if negb found then
         Raise (ParserException [Lit dquote; Str value; Lit dquote;
                                 Lit " is not a valid value for "; Lit dquote;
                                 Lit (enum_name cls); Lit dquote; Lit " Enum."])
       else enum_getitem cls value |}.

(** [str.lower] is a builtin of Python, defined on Unicode text.  The
    case-insensitive parser takes it as the argument [lower], so that
    what is proved of the parser holds for the builtin whatever it does
    to a string; [ascii_lower], which lowers the ASCII letters and
    leaves every other character alone, is the instance that the
    examples run with. *)
Definition lower_ascii (a : ascii) : ascii :=
  let n := nat_of_ascii a in
  if Nat.leb 65 n && Nat.leb n 90 then ascii_of_nat (n + 32) else a.

Fixpoint ascii_lower (s : string) : string :=
  match s with
  | EmptyString => EmptyString
  | String a s' => String (lower_ascii a) (ascii_lower s')
  end.

(** [for member in cls]: the members in definition order, aliases left
    out; each member is given by its [name]. *)
Definition enum_iter (e : EnumClass) : list string :=
  (filter (λ d, d.1 = d.2) (enum_members e)).*2.

(** [{member.name.lower(): member for member in cls}]: a later member
    replaces an earlier one under the same key. *)
Definition lowercase_values (lower : string → string) (e : EnumClass)
    : gmap string pyvalue :=
  foldl (λ values member, <[lower member := VEnum e member]> values) ∅ (enum_iter e).

Definition CaseInsensitiveEnumParser (lower : string → string) (cls : EnumClass) : Parser :=
  let values := lowercase_values lower cls in
  {| cls := Some c_Enum;
     parse := fun value =>
       match value with
       | VStr s =>
           if negb (bool_decide (is_Some (values !! lower s))) then
             Raise (ParserException [Lit dquote; Str value; Lit dquote;
                                     Lit " is not a valid value for "; Lit dquote;
                                     Lit (class_name c_Enum); Lit dquote; Lit " Enum."])
           else
             match values !! lower s with
             | Some member => Ok member
             | None => Raise (KeyError [Str (VStr (lower s))])
             end
       | _ => Raise (AttributeError [Lit "object has no attribute 'lower'"])
       end |}.

Definition BasicDictParser : Parser :=
  {| cls := None;
     parse := fun json_value => Ok json_value |}.

Definition TypingDictParser (value_parser : Parser) : Parser :=
  {| cls := None;
     parse := fun json_value =>
       match json_value with
       | VDict items =>
           parsed ← comprehension (λ kv, v ← parse value_parser kv.2; Ok (kv.1, v)) items;
           Ok (VDict parsed)
       | _ => Raise (AttributeError [Lit "object has no attribute 'items'"])
       end |}.

(** [hasattr(parser, 'cls') and isinstance(json_value, parser.cls)] *)
Definition shape_match (parser : Parser) (json_value : pyvalue) : bool :=
  match cls parser with
  | Some c => isinstance json_value c
  | None => false
  end.

(** The body of [UnionParser.parse]: the [for] loop over
    [self.value_parsers] and the [raise] after it. *)
Fixpoint union_parse (value_parsers : list Parser) (json_value : pyvalue) : result pyvalue :=
  match value_parsers with
  | [] => Raise (TypeError [Str json_value; Lit " is not compatible with Union type in Pyckson."])
  | parser :: rest =>
      if shape_match parser json_value then parse parser json_value
      else union_parse rest json_value
  end.

Definition UnionParser (value_parsers : list Parser) : Parser :=
  {| cls := None;
     parse := union_parse value_parsers |}.

(** [type(v)] *)
Definition type_of (v : pyvalue) : pyclass :=
  match v with
  | VNone => c_NoneType
  | VBool _ => c_bool
  | VInt _ => c_int
  | VFloat _ => c_float
  | VStr _ => c_str
  | VList _ => c_list
  | VDict _ => c_dict
  | VEnum e _ => c_enum e
  end.

(** The scalar classes that [BasicParserWithCast] is made for. *)
Definition scalar (c : pyclass) : bool :=
  match c with
  | c_str | c_int | c_float | c_bool => true
  | _ => false
  end.

(** ** Annotations and signatures *)

(** A type annotation: a class, [typing.Union[...]] with its
    [__union_params__], or another parametrized type such as
    [List[T]]. *)
Inductive pytype :=
| TClass (c : pyclass)
| TUnion (union_params : list pytype)
| TGeneric (origin : pyclass) (args : list pytype).

(** [isinstance(v, t)] for an annotation [t] *)
Definition isinstance_type (v : pyvalue) (t : pytype) : bool :=
  match t with
  | TClass c => isinstance v c
  | _ => false
  end.

(** [inspect.Parameter]: [default] and [annotation] are [None] when
    they are [Parameter.empty]. *)
Inductive parameter_kind :=
| POSITIONAL_ONLY
| POSITIONAL_OR_KEYWORD
| VAR_POSITIONAL
| KEYWORD_ONLY
| VAR_KEYWORD.

#[global] Instance parameter_kind_eq_dec : EqDecision parameter_kind.
Proof. solve_decision. Defined.

Module Param.
Record t := mk {
  name : string;
  default : option pyvalue;
  annotation : option pytype;
  kind : parameter_kind
}.
End Param.

(** What [inspect.getmembers] pairs with a name: a function, given by
    the parameters of its signature, or any other attribute. *)
Inductive member :=
| Function (parameters : list Param.t)
| Attribute.

(** A class to be modelled: its [__name__] and [getmembers(cls)]. *)
Record PyClass := mkClass {
  class___name__ : string;
  getmembers : list (string * member)
}.

(** [inspect.signature(f).parameters] *)
Definition signature (f : member) : result (list Param.t) :=
  match f with
  | Function parameters => Ok parameters
  | Attribute => Raise (TypeError [Lit "is not a callable object"])
  end.

(** ** The model builder of [pyckson/model/builder.py] *)

Module builder.
Section Builder.

(** The serializers belong to [pyckson.serializers], which the builder
    only passes on. *)
Context {Serializer : Type}.

(** Modelled from the spec: [PycksonAttribute] and [PycksonModel] of
    [pyckson/model/model.py] are not among the sources.  The attribute
    (spec: AttributeModel) holds the source name, the external name, the
    declared type, the optional flag and the bound serializer and
    parser, in the order of the constructor calls of [build_attribute];
    the model (spec: ClassModel) is the ordered sequence of
    attributes. *)
Record PycksonAttribute := mkAttribute {
  python_name : string;
  json_name : string;
  attr_type : pytype;
  optional : bool;
  serializer : Serializer;
  parser : Parser
}.

Record PycksonModel := mkModel {
  attributes : list PycksonAttribute
}.

(** [SerializerProvider.get] and [ParserProvider.get] of
    [pyckson.providers], taken as given: from a type, the owning class
    and the attribute name to a serializer, a parser or an exception. *)
Definition SerializerProvider := pytype → PyClass → string → result Serializer.
Definition ParserProvider := pytype → PyClass → string → result Parser.

(** The attributes of [self] that the methods read; [name_rule] is
    what [get_name_rule(cls)] of [pyckson.helpers] returned. *)
Record PycksonModelBuilder := mkBuilder {
  cls : PyClass;
  serializer_provider : SerializerProvider;
  parser_provider : ParserProvider;
  name_rule : string → string
}.

Implicit Type self : PycksonModelBuilder.

(** The [for ... else] of [find_constructor]. *)
Fixpoint find_constructor_loop (members : list (string * member)) : result member :=
  match members with
  | [] => Raise (ValueError [Lit "no constructor_found"])
  | member :: rest =>
      if bool_decide (member.1 = "__init__") then Ok member.2
      else find_constructor_loop rest
  end.

Definition find_constructor self : result member :=
  find_constructor_loop (getmembers (cls self)).

Definition is_optional_type (param_type : pytype) : bool :=
  match param_type with
  | TUnion union_params =>
      bool_decide (length union_params = 2) &&
      match union_params !! 1 with
      | Some arm => isinstance_type VNone arm
      | None => false
      end
  | _ => false
  end.

(** [annotation.__union_params__[i]] *)
Definition union_param (annotation : pytype) (i : nat) : result pytype :=
  match annotation with
  | TUnion union_params =>
      match union_params !! i with
      | Some arm => Ok arm
      | None => Raise (IndexError [Lit "tuple index out of range"])
      end
  | _ => Raise (AttributeError [Lit "type object has no attribute '__union_params__'"])
  end.

Definition build_attribute self (parameter : Param.t) : result PycksonAttribute :=
  let python_name := Param.name parameter in
  let json_name := name_rule self (Param.name parameter) in
  let optional := bool_decide (Param.default parameter ≠ None) in
  match Param.annotation parameter with
  | None =>
      Raise (TypeError [Lit "parameter "; Lit (Param.name parameter); Lit " in class ";
                        Lit (class___name__ (cls self)); Lit " has no type"])
  | Some annotation =>
      if bool_decide (Param.kind parameter ≠ POSITIONAL_OR_KEYWORD) then
        Raise (TypeError [Lit "pyckson only handle named parameters"])
      else if is_optional_type annotation then
        arm ← union_param annotation 0;
        serializer ← serializer_provider self (TClass c_str) (cls self) python_name;
        parser ← parser_provider self (TClass c_str) (cls self) python_name;
        Ok (mkAttribute python_name json_name arm true serializer parser)
      else
        serializer ← serializer_provider self annotation (cls self) python_name;
        parser ← parser_provider self annotation (cls self) python_name;
        Ok (mkAttribute python_name json_name annotation optional serializer parser)
  end.

(** The loop of [build_model] over the parameters of the signature,
    appending to [attributes]. *)
Fixpoint build_model_loop self (parameters : list Param.t)
    (attributes : list PycksonAttribute) : result (list PycksonAttribute) :=
  match parameters with
  | [] => Ok attributes
  | parameter :: rest =>
      if bool_decide (Param.name parameter ≠ "self") then
        attribute ← build_attribute self parameter;
        build_model_loop self rest (attributes ++ [attribute])
      else build_model_loop self rest attributes
  end.

Definition build_model self : result PycksonModel :=
  constructor ← find_constructor self;
  parameters ← signature constructor;
  attributes ← build_model_loop self parameters [];
  Ok (mkModel attributes).

End Builder.
End builder.
(** ** Example enum, classes and collaborators *)

(** [class Color(Enum): RED = 1; Green = 2; CRIMSON = 1; red = 3] *)
Definition Color : EnumClass :=
  mkEnum "Color" [("RED", "RED"); ("Green", "Green"); ("CRIMSON", "RED"); ("red", "red")].

(** [class Shade(Enum): DARK = 1; LIGHT = 2] *)
Definition Shade : EnumClass :=
  mkEnum "Shade" [("DARK", "DARK"); ("LIGHT", "LIGHT")].

Definition upper_ascii (a : ascii) : ascii :=
  let n := nat_of_ascii a in
  if Nat.leb 97 n && Nat.leb n 122 then ascii_of_nat (n - 32) else a.

(** Modelled from the spec: the name rules belong to [pyckson.helpers],
    which is not among the sources; the spec names the identity as the
    default rule and the camelCase conversion as an alternate.  The
    conversion drops each underscore and capitalizes the letter after
    it. *)
Fixpoint camel_case_from (capitalize : bool) (s : string) : string :=
  match s with
  | EmptyString => EmptyString
  | String a s' =>
      if bool_decide (a = "_"%char) then camel_case_from true s'
      else String (if capitalize then upper_ascii a else a) (camel_case_from false s')
  end.

Definition camel_case (python_name : string) : string :=
  camel_case_from false python_name.

Definition same_name (python_name : string) : string := python_name.

(** A parser provider for the examples: the casting parser for a scalar
    class, a list parser for [List[T]], a union parser for a union, and
    the raw parser for any other type. *)
Fixpoint example_parser (t : pytype) : Parser :=
  match t with
  | TClass c => if scalar c then BasicParserWithCast c else BasicParser
  | TGeneric c_list [arg] => ListParser (example_parser arg)
  | TUnion union_params => UnionParser (example_parser <$> union_params)
  | _ => BasicParser
  end.

Definition example_parser_provider : @builder.ParserProvider :=
  λ obj_type parent_class name_in_parent, Ok (example_parser obj_type).

(** A serializer provider for the examples, with the name of the type
    as serializer. *)
Definition example_serializer_provider : @builder.SerializerProvider pytype :=
  λ obj_type parent_class name_in_parent, Ok obj_type.

Definition self_parameter : Param.t :=
  Param.mk "self" None None POSITIONAL_OR_KEYWORD.

(** [class Point: def __init__(self, x: int, label: str = None)] *)
Definition Point : PyClass :=
  mkClass "Point"
    [("__doc__", Attribute);
     ("__init__", Function [self_parameter;
                            Param.mk "x" None (Some (TClass c_int)) POSITIONAL_OR_KEYWORD;
                            Param.mk "label" (Some VNone) (Some (TClass c_str))
                                     POSITIONAL_OR_KEYWORD]);
     ("__module__", Attribute)].

(** [class Account: def __init__(self, user_name: str, userName: str)] *)
Definition Account : PyClass :=
  mkClass "Account"
    [("__init__", Function [self_parameter;
                            Param.mk "user_name" None (Some (TClass c_str)) POSITIONAL_OR_KEYWORD;
                            Param.mk "userName" None (Some (TClass c_str))
                                     POSITIONAL_OR_KEYWORD])].

(** [class Counter: def __init__(self, count: Optional[int])] *)
Definition count_parameter : Param.t :=
  Param.mk "count" None (Some (TUnion [TClass c_int; TClass c_NoneType])) POSITIONAL_OR_KEYWORD.

Definition Counter : PyClass :=
  mkClass "Counter" [("__init__", Function [self_parameter; count_parameter])].

(** [class Bag: def __init__(self, *items: int)] and a class whose
    constructor leaves [size] without annotation. *)
Definition Bag : PyClass :=
  mkClass "Bag"
    [("__init__", Function [self_parameter;
                            Param.mk "items" None (Some (TClass c_int)) VAR_POSITIONAL])].

Definition Box : PyClass :=
  mkClass "Box"
    [("__init__", Function [self_parameter;
                            Param.mk "size" None None POSITIONAL_OR_KEYWORD])].

Definition example_builder (cls : PyClass) (name_rule : string → string)
    : builder.PycksonModelBuilder :=
  builder.mkBuilder cls example_serializer_provider example_parser_provider name_rule.

(** A class whose members hold no [__init__]. *)
Definition Blank : PyClass :=
  mkClass "Blank" [("__doc__", Attribute); ("__module__", Attribute)].

(** The parameter [text: Optional[str] = None]. *)
Definition text_parameter : Param.t :=
  Param.mk "text" (Some VNone) (Some (TUnion [TClass c_str; TClass c_NoneType]))
           POSITIONAL_OR_KEYWORD.
(** ** Properties of the parsers *)

Section Parsers.

Implicit Types (parser sub_parser : Parser) (json_value : pyvalue).

Lemma comprehension_Ok {A B} (f : A → result B) (items : list A) (ys : list B) :
  comprehension f items = Ok ys ↔ Forall2 (λ x y, f x = Ok y) items ys.
Proof.
  revert ys. induction items as [|x items IH]; intros ys; simpl.
  - split.
    + intros [= <-]. constructor.
    + intros H. by inversion H.
  - destruct (f x) as [y|e] eqn:Hx; simpl.
    + destruct (comprehension f items) as [ys'|e] eqn:Hc; simpl.
      * split.
        -- intros [= <-]. constructor; [done|]. by apply IH.
        -- intros H. inversion H as [|? y' ? ys'' Hy Hrest]; subst.
           rewrite Hx in Hy. injection Hy as <-.
           apply IH in Hrest. by injection Hrest as <-.
      * split; [done|].
        intros H. inversion H as [|? y' ? ys'' Hy Hrest]; subst.
        by apply IH in Hrest.
    + split; [done|].
      intros H. inversion H as [|? y' ? ys'' Hy Hrest]; subst.
      by rewrite Hx in Hy.
Qed.

Lemma comprehension_total {A B} (f : A → result B) (items : list A) :
  Forall (λ x, ∃ y, f x = Ok y) items → ∃ ys, comprehension f items = Ok ys.
Proof.
  induction 1 as [|x items [y Hy] _ [ys IH]]; simpl.
  - by exists [].
  - exists (y :: ys). by rewrite Hy, IH.
Qed.

Lemma comprehension_Raise {A B} (f : A → result B) (pre post : list A) (x : A) (e : exn) :
  Forall (λ x, ∃ y, f x = Ok y) pre → f x = Raise e →
  comprehension f (pre ++ x :: post) = Raise e.
Proof.
  intros Hpre Hx. induction Hpre as [|x' pre [y Hy] _ IH]; simpl.
  - by rewrite Hx.
  - by rewrite Hy, IH.
Qed.

Lemma union_parse_first_match (pre post : list Parser) parser json_value :
  Forall (λ p, shape_match p json_value = false) pre →
  shape_match parser json_value = true →
  union_parse (pre ++ parser :: post) json_value = parse parser json_value.
Proof.
  intros Hpre Hm. induction Hpre as [|p pre Hp _ IH]; simpl.
  - by rewrite Hm.
  - by rewrite Hp.
Qed.

Lemma union_parse_no_match (value_parsers : list Parser) json_value :
  Forall (λ p, shape_match p json_value = false) value_parsers →
  union_parse value_parsers json_value =
    Raise (TypeError [Str json_value; Lit " is not compatible with Union type in Pyckson."]).
Proof.
  induction 1 as [|p ps Hp _ IH]; simpl; [done|]. by rewrite Hp.
Qed.

Lemma union_parse_filter_cls (value_parsers : list Parser) json_value :
  union_parse value_parsers json_value =
  union_parse (filter (λ p, is_Some (cls p)) value_parsers) json_value.
Proof.
  induction value_parsers as [|p ps IH]; [done|].
  unfold filter in *. simpl. unfold shape_match at 1.
  destruct (cls p) as [c|] eqn:Hc.
  - rewrite decide_True by eauto. simpl.
    unfold shape_match. rewrite Hc. by rewrite IH.
  - rewrite decide_False by (by intros [? ?]). done.
Qed.

Lemma getitem_elem_of {A} (d : list (string * A)) (key : string) (a : A) :
  getitem d key = Some a → (key, a) ∈ d.
Proof.
  induction d as [|[k b] d IH]; simpl; [done|].
  case_bool_decide as Hk.
  - intros [= ->]. subst. left.
  - intros H. right. by apply IH.
Qed.

Lemma getitem_is_Some {A} (d : list (string * A)) (key : string) :
  key ∈ d.*1 → is_Some (getitem d key).
Proof.
  induction d as [|[k b] d IH]; simpl.
  - by intros ?%elem_of_nil.
  - intros [->|Hin]%elem_of_cons; case_bool_decide; eauto; done.
Qed.

Lemma getitem_NoDup {A} (d : list (string * A)) (key : string) (a : A) :
  NoDup d.*1 → (key, a) ∈ d → getitem d key = Some a.
Proof.
  induction d as [|[k b] d IH]; simpl.
  - by intros _ ?%elem_of_nil.
  - intros [Hk Hd]%NoDup_cons [[= -> ->]|Hin]%elem_of_cons.
    + by rewrite bool_decide_true.
    + rewrite bool_decide_false; [by apply IH|].
      intros ->. apply Hk. apply list_elem_of_fmap. by exists (key, a).
Qed.

Lemma lowercase_fold_lookup (lower : string → string) (e : EnumClass) (names : list string)
    (values : gmap string pyvalue) (key : string) :
  foldl (λ values member, <[lower member := VEnum e member]> values) values names !! key =
  match last (filter (λ m, lower m = key) names) with
  | Some m => Some (VEnum e m)
  | None => values !! key
  end.
Proof.
  revert values. induction names as [|n names IH]; intros values; simpl; [done|].
  rewrite IH. destruct (decide (lower n = key)) as [Hn|Hn].
  - rewrite filter_cons_True by done. rewrite last_cons.
    destruct (last _); [done|]. subst. by rewrite lookup_insert_eq.
  - rewrite filter_cons_False by done.
    destruct (last _); [done|]. by rewrite lookup_insert_ne.
Qed.

Lemma lowercase_values_lookup (lower : string → string) (e : EnumClass) (key : string) :
  lowercase_values lower e !! key =
  (λ m, VEnum e m) <$> last (filter (λ m, lower m = key) (enum_iter e)).
Proof.
  unfold lowercase_values. rewrite lowercase_fold_lookup.
  destruct (last _); simpl; [done|]. apply lookup_empty.
Qed.


End Parsers.

Section ParserClaims.

Implicit Types (parser sub_parser : Parser) (json_value : pyvalue).

(** C3, as the code has it: [UnionParser.parse] tests the alternatives
    in their declared order for a shape match (the parser has a [cls]
    and the value is an instance of it) and returns what the first
    matching alternative's [parse] returns; when no alternative matches
    it raises the builtin [TypeError] with the message "<value> is not
    compatible with Union type in Pyckson.", which holds the value and
    nothing of the union: every union that has no match for the value
    raises the same exception. *)
Theorem UnionParser_parse_first_shape_match (value_parsers : list Parser) json_value :
  (∀ (pre : list Parser) parser post,
      value_parsers = pre ++ parser :: post →
      Forall (λ p, shape_match p json_value = false) pre →
      shape_match parser json_value = true →
      parse (UnionParser value_parsers) json_value = parse parser json_value)
  ∧ (Forall (λ p, shape_match p json_value = false) value_parsers →
      parse (UnionParser value_parsers) json_value =
        Raise (TypeError [Str json_value; Lit " is not compatible with Union type in Pyckson."]))
  ∧ (∀ other_parsers : list Parser,
      Forall (λ p, shape_match p json_value = false) value_parsers →
      Forall (λ p, shape_match p json_value = false) other_parsers →
      parse (UnionParser value_parsers) json_value =
      parse (UnionParser other_parsers) json_value).
Proof.
  split; [|split].
  - intros pre parser post -> Hpre Hm. simpl. by apply union_parse_first_match.
  - intros Hnone. simpl. by apply union_parse_no_match.
  - intros other_parsers Hnone Hother. simpl.
    by rewrite !union_parse_no_match.
Qed.

Lemma UnionParser_parse_first_shape_match_witness :
  parse (UnionParser [BasicParser; ListParser BasicParser; BasicParserWithCast c_int;
                      BasicParserWithCast c_bool]) (VBool true) = Ok (VInt 1)
  ∧ parse (UnionParser [BasicParser; ListParser BasicParser; BasicParserWithCast c_int])
          (VStr "a") =
      Raise (TypeError [Str (VStr "a"); Lit " is not compatible with Union type in Pyckson."])
  ∧ parse (UnionParser [BasicParser; ListParser BasicParser; BasicParserWithCast c_int])
          (VStr "a") =
    parse (UnionParser [BasicParserWithCast c_float]) (VStr "a").
Proof.
  split; [|split].
  - apply (proj1 (UnionParser_parse_first_shape_match
                    [BasicParser; ListParser BasicParser; BasicParserWithCast c_int;
                     BasicParserWithCast c_bool] (VBool true))
                 [BasicParser; ListParser BasicParser] (BasicParserWithCast c_int)
                 [BasicParserWithCast c_bool]).
    + reflexivity.
    + repeat constructor.
    + reflexivity.
  - apply (proj1 (proj2 (UnionParser_parse_first_shape_match
                    [BasicParser; ListParser BasicParser; BasicParserWithCast c_int]
                    (VStr "a")))).
    repeat constructor.
  - apply (proj2 (proj2 (UnionParser_parse_first_shape_match
                    [BasicParser; ListParser BasicParser; BasicParserWithCast c_int]
                    (VStr "a")))
             [BasicParserWithCast c_float]).
    + repeat constructor.
    + repeat constructor.
Defined.

(** C3, against the claim as stated: the union of [int] and [float] and
    the union of [bool] and a list refuse the string "a" with one and
    the same exception, so the exception does not name the declared
    union; and it is the builtin [TypeError], where the casting parser
    and the list parser raise [ParserException] for a value of the
    wrong shape. *)
Lemma UnionParser_error_does_not_name_the_union :
  parse (UnionParser [BasicParserWithCast c_int; BasicParserWithCast c_float]) (VStr "a") =
    Raise (TypeError [Str (VStr "a"); Lit " is not compatible with Union type in Pyckson."])
  ∧ parse (UnionParser [BasicParserWithCast c_bool; ListParser BasicParser]) (VStr "a") =
      Raise (TypeError [Str (VStr "a"); Lit " is not compatible with Union type in Pyckson."])
  ∧ (∃ msg, parse (BasicParserWithCast c_int) (VStr "a") = Raise (ParserException msg))
  ∧ (∃ msg, parse (ListParser BasicParser) (VStr "a") = Raise (ParserException msg)).
Proof.
  repeat split; eexists; reflexivity.
Qed.

(** C10: an alternative without a [cls] attribute is never selected by
    [UnionParser.parse]: the result is the one of the union of the
    alternatives that have a [cls], whatever the [parse] of the others
    would return; hence when every alternative either lacks [cls] or
    fails on the value, the union fails. *)
Theorem UnionParser_parse_skips_parsers_without_cls (value_parsers : list Parser) json_value :
  parse (UnionParser value_parsers) json_value =
    parse (UnionParser (filter (λ p, is_Some (cls p)) value_parsers)) json_value
  ∧ ((∀ p, p ∈ value_parsers → cls p = None ∨ ∃ e, parse p json_value = Raise e) →
      ∃ e, parse (UnionParser value_parsers) json_value = Raise e).
Proof.
  split; [apply union_parse_filter_cls|].
  simpl. induction value_parsers as [|p ps IH]; intros Hall; simpl; [eauto|].
  unfold shape_match. destruct (Hall p) as [Hc|[e He]]; [left| |].
  - rewrite Hc. apply IH. intros q Hq. apply Hall. by right.
  - destruct (cls p) as [c|]; [destruct (isinstance json_value c)|]; eauto;
      apply IH; intros q Hq; apply Hall; by right.
Qed.

Lemma UnionParser_parse_skips_parsers_without_cls_witness :
  parse BasicParser (VStr "a") = Ok (VStr "a")
  ∧ ∃ e, parse (UnionParser [BasicParser; BasicParserWithCast c_int]) (VStr "a") = Raise e.
Proof.
  split; [reflexivity|].
  apply (proj2 (UnionParser_parse_skips_parsers_without_cls
                  [BasicParser; BasicParserWithCast c_int] (VStr "a"))).
  intros p Hp.
  apply elem_of_cons in Hp as [->|Hp]; [by left|].
  apply elem_of_cons in Hp as [->|Hp]; [right; eexists; reflexivity|].
  by apply elem_of_nil in Hp.
Defined.

(** C5: [ListParser.parse] on a list whose items the element parser
    converts returns the list of the converted items, of the same
    length and in the same order; the first item that the element
    parser refuses ends it with that exception; on a value that is not
    a list it raises [ParserException]. *)
Theorem ListParser_parse_spec sub_parser :
  (∀ items,
      Forall (λ item, ∃ y, parse sub_parser item = Ok y) items →
      ∃ parsed,
        parse (ListParser sub_parser) (VList items) = Ok (VList parsed)
        ∧ length parsed = length items
        ∧ ∀ i item, items !! i = Some item →
            ∃ y, parsed !! i = Some y ∧ parse sub_parser item = Ok y)
  ∧ (∀ (pre : list pyvalue) item post e,
      Forall (λ item, ∃ y, parse sub_parser item = Ok y) pre →
      parse sub_parser item = Raise e →
      parse (ListParser sub_parser) (VList (pre ++ item :: post)) = Raise e)
  ∧ (∀ json_value,
      isinstance json_value c_list = false →
      parse (ListParser sub_parser) json_value =
        Raise (ParserException [Lit dquote; Str json_value; Lit dquote;
                                Lit " is supposed to be a list."])).
Proof.
  split; [|split].
  - intros items Hall.
    destruct (comprehension_total _ _ Hall) as [parsed Hc].
    exists parsed. simpl. rewrite Hc. simpl.
    apply comprehension_Ok in Hc.
    split; [done|]. split.
    + symmetry. by eapply Forall2_length.
    + intros i item Hi.
      destruct (Forall2_lookup_l _ _ _ _ _ Hc Hi) as (y & Hy & Hp). eauto.
  - intros pre item post e Hpre He. simpl.
    by rewrite (comprehension_Raise _ _ _ _ _ Hpre He).
  - intros json_value Hi. simpl. by rewrite Hi.
Qed.

Lemma ListParser_parse_spec_witness :
  (∃ parsed,
      parse (ListParser (BasicParserWithCast c_int)) (VList [VInt 4; VBool true]) =
        Ok (VList parsed)
      ∧ length parsed = 2
      ∧ ∀ i item, [VInt 4; VBool true] !! i = Some item →
          ∃ y, parsed !! i = Some y ∧ parse (BasicParserWithCast c_int) item = Ok y)
  ∧ parse (ListParser (BasicParserWithCast c_int)) (VStr "not-a-list") =
      Raise (ParserException [Lit dquote; Str (VStr "not-a-list"); Lit dquote;
                              Lit " is supposed to be a list."]).
Proof.
  split.
  - apply (proj1 (ListParser_parse_spec (BasicParserWithCast c_int)) [VInt 4; VBool true]).
    repeat constructor; eexists; reflexivity.
  - apply (proj2 (proj2 (ListParser_parse_spec (BasicParserWithCast c_int)))).
    reflexivity.
Defined.

(** C6: on a string, [DefaultEnumParser.parse] returns the member that
    the string names when the string is, letter for letter, one of the
    names declared in the enum, and raises [ParserException] for every
    other string. *)
Theorem DefaultEnumParser_parse_spec (e : EnumClass) (s : string) :
  (s ∈ (enum_members e).*1 →
      ∃ m, (s, m) ∈ enum_members e
           ∧ parse (DefaultEnumParser e) (VStr s) = Ok (VEnum e m)
           ∧ (NoDup (enum_members e).*1 →
                ∀ m', (s, m') ∈ enum_members e → m' = m))
  ∧ (s ∉ (enum_members e).*1 →
      parse (DefaultEnumParser e) (VStr s) =
        Raise (ParserException [Lit dquote; Str (VStr s); Lit dquote;
                                Lit " is not a valid value for "; Lit dquote;
                                Lit (enum_name e); Lit dquote; Lit " Enum."])).
Proof.
  split; intros Hs; simpl.
  - rewrite bool_decide_true by done. simpl.
    destruct (getitem_is_Some _ _ Hs) as [m Hm].
    exists m. rewrite Hm. split; [by apply getitem_elem_of|]. split; [done|].
    intros Hnd m' Hm'. apply (getitem_NoDup _ _ _ Hnd) in Hm'. congruence.
  - by rewrite bool_decide_false.
Qed.

Lemma DefaultEnumParser_parse_spec_witness :
  (∃ m, ("RED", m) ∈ enum_members Color
        ∧ parse (DefaultEnumParser Color) (VStr "RED") = Ok (VEnum Color m)
        ∧ (NoDup (enum_members Color).*1 →
             ∀ m', ("RED", m') ∈ enum_members Color → m' = m))
  ∧ parse (DefaultEnumParser Color) (VStr "Red") =
      Raise (ParserException [Lit dquote; Str (VStr "Red"); Lit dquote;
                              Lit " is not a valid value for "; Lit dquote;
                              Lit "Color"; Lit dquote; Lit " Enum."]).
Proof.
  split.
  - apply (proj1 (DefaultEnumParser_parse_spec Color "RED")).
    by apply (bool_decide_unpack _).
  - apply (proj2 (DefaultEnumParser_parse_spec Color "Red")).
    by apply (bool_decide_unpack _).
Defined.




(** C8: for a scalar class [C] ([str], [int], [float] or [bool]),
    [BasicParserWithCast(C).parse] returns [C(value)], an object of
    type [C], on a value that is an instance of [C], and raises
    [ParserException] on a value that is not. *)
Theorem BasicParserWithCast_parse_spec (C : pyclass) json_value :
  scalar C = true →
  (isinstance json_value C = true →
      ∃ v, parse (BasicParserWithCast C) json_value = Ok v
           ∧ call_class C json_value = Ok v
           ∧ type_of v = C
           ∧ (v = json_value
              ∨ ∃ b, C = c_int ∧ json_value = VBool b ∧ v = VInt (if b then 1 else 0)))
  ∧ (isinstance json_value C = false →
      parse (BasicParserWithCast C) json_value =
        Raise (ParserException [Lit dquote; Str json_value; Lit dquote;
                                Lit " is supposed to be a "; Lit (class_name C); Lit "."])).
Proof.
  intros HC. split; intros Hi; simpl; rewrite Hi; simpl; [|done].
  destruct C; try discriminate HC; destruct json_value; try discriminate Hi; simpl;
    eexists; (repeat split; [reflexivity..|]); eauto.
Qed.

Lemma BasicParserWithCast_parse_spec_witness :
  (∃ v, parse (BasicParserWithCast c_int) (VBool true) = Ok v
        ∧ call_class c_int (VBool true) = Ok v
        ∧ type_of v = c_int
        ∧ (v = VBool true
           ∨ ∃ b, c_int = c_int ∧ VBool true = VBool b ∧ v = VInt (if b then 1 else 0)))
  ∧ parse (BasicParserWithCast c_str) (VInt 3) =
      Raise (ParserException [Lit dquote; Str (VInt 3); Lit dquote;
                              Lit " is supposed to be a "; Lit "str"; Lit "."]).
Proof.
  split.
  - apply (proj1 (BasicParserWithCast_parse_spec c_int (VBool true) eq_refl)). reflexivity.
  - apply (proj2 (BasicParserWithCast_parse_spec c_str (VInt 3) eq_refl)). reflexivity.
Defined.

End ParserClaims.

(** ** Properties of the model builder *)

Section BuilderLemmas.

Import builder.
Context {Serializer : Type}.
Implicit Types (self : @PycksonModelBuilder Serializer) (parameter : Param.t).

Lemma bind_Ok {A B} (r : result A) (k : A → result B) (b : B) :
  (r ≫= k) = Ok b → ∃ a, r = Ok a ∧ k a = Ok b.
Proof. destruct r as [a|e]; simpl; [eauto|done]. Qed.

Lemma find_constructor_loop_absent (members : list (string * member)) :
  "__init__" ∉ members.*1 →
  find_constructor_loop members = Raise (ValueError [Lit "no constructor_found"]).
Proof.
  induction members as [|[n f] members IH]; simpl; [done|].
  intros Hn. apply not_elem_of_cons in Hn as [Hn Hrest].
  rewrite bool_decide_false by done. by apply IH.
Qed.

(** What [build_attribute] returns when the type is not optional. *)
Lemma build_attribute_plain self parameter annotation :
  Param.annotation parameter = Some annotation →
  Param.kind parameter = POSITIONAL_OR_KEYWORD →
  is_optional_type annotation = false →
  build_attribute self parameter =
    (serializer ← serializer_provider self annotation (cls self) (Param.name parameter);
     parser ← parser_provider self annotation (cls self) (Param.name parameter);
     Ok (mkAttribute (Param.name parameter) (name_rule self (Param.name parameter)) annotation
                     (bool_decide (Param.default parameter ≠ None)) serializer parser)).
Proof.
  intros Ha Hk Ho. unfold build_attribute. rewrite Ha, Ho.
  by rewrite bool_decide_false by (by intros []).
Qed.

(** What [build_attribute] returns on [Optional[T]]: both providers are
    asked for [str]. *)
Lemma build_attribute_optional self parameter (T arm : pytype) :
  Param.annotation parameter = Some (TUnion [T; arm]) →
  Param.kind parameter = POSITIONAL_OR_KEYWORD →
  isinstance_type VNone arm = true →
  build_attribute self parameter =
    (serializer ← serializer_provider self (TClass c_str) (cls self) (Param.name parameter);
     parser ← parser_provider self (TClass c_str) (cls self) (Param.name parameter);
     Ok (mkAttribute (Param.name parameter) (name_rule self (Param.name parameter)) T
                     true serializer parser)).
Proof.
  intros Ha Hk Ho. unfold build_attribute. rewrite Ha.
  rewrite bool_decide_false by (by intros []).
  simpl. by rewrite Ho.
Qed.

Lemma build_attribute_names self parameter attribute :
  build_attribute self parameter = Ok attribute →
  python_name attribute = Param.name parameter
  ∧ json_name attribute = name_rule self (Param.name parameter).
Proof.
  unfold build_attribute.
  destruct (Param.annotation parameter) as [annotation|]; [|done].
  case_bool_decide as Hkind; [done|].
  destruct (is_optional_type annotation).
  - intros (arm & _ & H)%bind_Ok.
    apply bind_Ok in H as (s & _ & H'). apply bind_Ok in H' as (p & _ & H'').
    by injection H'' as <-.
  - intros (s & _ & H)%bind_Ok. apply bind_Ok in H as (p & _ & H').
    by injection H' as <-.
Qed.

Lemma build_attribute_rejects self parameter :
  Param.annotation parameter = None ∨ Param.kind parameter ≠ POSITIONAL_OR_KEYWORD →
  ∃ msg, build_attribute self parameter = Raise (TypeError msg).
Proof.
  unfold build_attribute. intros [Ha|Hk].
  - rewrite Ha. eauto.
  - destruct (Param.annotation parameter); [|eauto].
    rewrite bool_decide_true by done. eauto.
Qed.

Lemma build_model_loop_names self (parameters : list Param.t)
    (attributes result : list PycksonAttribute) :
  build_model_loop self parameters attributes = Ok result →
  json_name <$> result =
    (json_name <$> attributes) ++
    (name_rule self <$> filter (λ name, name ≠ "self") (Param.name <$> parameters)).
Proof.
  revert attributes. induction parameters as [|p ps IH]; intros attributes; simpl.
  - intros [= <-]. by rewrite app_nil_r.
  - case_bool_decide as Hself.
    + intros (a & Ha & Hloop)%bind_Ok.
      apply IH in Hloop. rewrite Hloop.
      apply build_attribute_names in Ha as [_ Hj].
      rewrite filter_cons_True by done.
      rewrite fmap_app. simpl. rewrite Hj. by rewrite <- app_assoc.
    + intros Hloop. apply IH in Hloop. rewrite Hloop.
      by rewrite filter_cons_False by (by intros ?).
Qed.

Lemma build_model_loop_rejects self (parameters : list Param.t)
    (attributes : list PycksonAttribute) parameter :
  parameter ∈ parameters →
  Param.name parameter ≠ "self" →
  Param.annotation parameter = None ∨ Param.kind parameter ≠ POSITIONAL_OR_KEYWORD →
  ∃ e, build_model_loop self parameters attributes = Raise e.
Proof.
  intros Hin Hself Hbad. revert attributes.
  induction parameters as [|p ps IH]; intros attributes; simpl.
  - by apply elem_of_nil in Hin.
  - apply elem_of_cons in Hin as [<-|Hin].
    + rewrite bool_decide_true by done.
      destruct (build_attribute_rejects self parameter Hbad) as [msg ->]. simpl. eauto.
    + case_bool_decide; [|by apply IH].
      destruct (build_attribute self p) as [a|e]; simpl; [by apply IH|eauto].
Qed.

Lemma NoDup_fmap_inj_on {A B} (f : A → B) (l : list A) :
  NoDup l → (∀ x y, x ∈ l → y ∈ l → f x = f y → x = y) → NoDup (f <$> l).
Proof.
  induction 1 as [|x l Hx Hl IH]; intros Hinj; simpl; constructor.
  - intros (y & Hxy & Hy)%list_elem_of_fmap.
    apply Hx. rewrite (Hinj x y); [done|left|by right|done].
  - apply IH. intros a b Ha Hb. apply Hinj; by right.
Qed.

End BuilderLemmas.

(** C1, as the code has it: [build_model] checks nothing about the
    external names.  The external names of a built model are the name
    rule applied to the names of the parameters other than [self], in
    the order of the signature; they are pairwise distinct when the
    parameter names are and the name rule sends no two of them to the
    same external name. *)
Theorem build_model_external_names {Serializer : Type}
    (self : @builder.PycksonModelBuilder Serializer) (model : builder.PycksonModel) :
  builder.build_model self = Ok model →
  ∃ constructor parameters,
    builder.find_constructor self = Ok constructor
    ∧ signature constructor = Ok parameters
    ∧ builder.json_name <$> builder.attributes model =
        builder.name_rule self <$> filter (λ name, name ≠ "self") (Param.name <$> parameters)
    ∧ (NoDup (Param.name <$> parameters) →
       (∀ x y, x ∈ Param.name <$> parameters → y ∈ Param.name <$> parameters →
               x ≠ "self" → y ≠ "self" →
               builder.name_rule self x = builder.name_rule self y → x = y) →
       NoDup (builder.json_name <$> builder.attributes model)).
Proof.
  unfold builder.build_model.
  intros (constructor & Hc & H)%bind_Ok.
  apply bind_Ok in H as (parameters & Hs & H').
  apply bind_Ok in H' as (attributes & Hloop & Hm).
  injection Hm as <-. simpl.
  exists constructor, parameters. repeat split; try done.
  - by rewrite (build_model_loop_names _ _ _ _ Hloop).
  - intros Hnd Hinj. rewrite (build_model_loop_names _ _ _ _ Hloop). simpl.
    apply NoDup_fmap_inj_on; [by apply NoDup_filter|].
    intros x y [Hx Hxin]%list_elem_of_filter [Hy Hyin]%list_elem_of_filter. by apply Hinj.
Qed.

Lemma build_model_external_names_witness :
  ∃ constructor parameters,
    builder.find_constructor (example_builder Point same_name) = Ok constructor
    ∧ signature constructor = Ok parameters
    ∧ builder.json_name <$> [
          builder.mkAttribute "x" "x" (TClass c_int) false (TClass c_int)
                              (example_parser (TClass c_int));
          builder.mkAttribute "label" "label" (TClass c_str) true (TClass c_str)
                              (example_parser (TClass c_str))] =
        same_name <$> filter (λ name, name ≠ "self") (Param.name <$> parameters)
    ∧ (NoDup (Param.name <$> parameters) →
       (∀ x y, x ∈ Param.name <$> parameters → y ∈ Param.name <$> parameters →
               x ≠ "self" → y ≠ "self" → same_name x = same_name y → x = y) →
       NoDup (builder.json_name <$> [
          builder.mkAttribute "x" "x" (TClass c_int) false (TClass c_int)
                              (example_parser (TClass c_int));
          builder.mkAttribute "label" "label" (TClass c_str) true (TClass c_str)
                              (example_parser (TClass c_str))])).
Proof.
  apply (build_model_external_names (example_builder Point same_name)
           (builder.mkModel [
              builder.mkAttribute "x" "x" (TClass c_int) false (TClass c_int)
                                  (example_parser (TClass c_int));
              builder.mkAttribute "label" "label" (TClass c_str) true (TClass c_str)
                                  (example_parser (TClass c_str))])).
  reflexivity.
Defined.

(** C1, against the claim as stated: with the camelCase rule the class
    [Account], whose fields [user_name] and [userName] have the same
    external name, is built without an error, and its model holds the
    external name [userName] twice. *)
Lemma build_model_accepts_colliding_names :
  ∃ model : @builder.PycksonModel pytype,
    builder.build_model (example_builder Account camel_case) = Ok model
    ∧ builder.json_name <$> builder.attributes model = ["userName"; "userName"]
    ∧ ¬ NoDup (builder.json_name <$> builder.attributes model).
Proof.
  eexists. split; [reflexivity|]. split; [reflexivity|].
  simpl. intros [Hn _]%NoDup_cons. apply Hn. left.
Qed.

(** C4: [build_model] produces no model, and raises, when the members
    of the class hold no [__init__] ([ValueError]), when what
    [__init__] names is not a function with a signature ([TypeError]),
    and when a parameter other than [self] has no annotation or is not
    of kind [POSITIONAL_OR_KEYWORD]. *)
Theorem build_model_rejects {Serializer : Type}
    (self : @builder.PycksonModelBuilder Serializer) :
  ("__init__" ∉ (getmembers (builder.cls self)).*1 →
      builder.build_model self = Raise (ValueError [Lit "no constructor_found"]))
  ∧ (builder.find_constructor self = Ok Attribute →
      builder.build_model self = Raise (TypeError [Lit "is not a callable object"]))
  ∧ (∀ parameters parameter,
      builder.find_constructor self = Ok (Function parameters) →
      parameter ∈ parameters →
      Param.name parameter ≠ "self" →
      Param.annotation parameter = None ∨ Param.kind parameter ≠ POSITIONAL_OR_KEYWORD →
      ∃ e, builder.build_model self = Raise e).
Proof.
  unfold builder.build_model, builder.find_constructor. split; [|split].
  - intros Habsent. by rewrite find_constructor_loop_absent.
  - by intros ->.
  - intros parameters parameter -> Hin Hself Hbad. simpl.
    destruct (build_model_loop_rejects self parameters [] parameter Hin Hself Hbad) as [e ->].
    simpl. eauto.
Qed.

Lemma build_model_rejects_witness :
  builder.build_model (example_builder Blank same_name) =
    Raise (ValueError [Lit "no constructor_found"])
  ∧ (∃ e, builder.build_model (example_builder Box same_name) = Raise e)
  ∧ (∃ e, builder.build_model (example_builder Bag same_name) = Raise e).
Proof.
  split; [|split].
  - apply (proj1 (build_model_rejects (example_builder Blank same_name))).
    by apply (bool_decide_unpack _).
  - apply (proj2 (proj2 (build_model_rejects (example_builder Box same_name)))
             [self_parameter; Param.mk "size" None None POSITIONAL_OR_KEYWORD]
             (Param.mk "size" None None POSITIONAL_OR_KEYWORD)).
    + reflexivity.
    + right. left.
    + discriminate.
    + by left.
  - apply (proj2 (proj2 (build_model_rejects (example_builder Bag same_name)))
             [self_parameter; Param.mk "items" None (Some (TClass c_int)) VAR_POSITIONAL]
             (Param.mk "items" None (Some (TClass c_int)) VAR_POSITIONAL)).
    + reflexivity.
    + right. left.
    + discriminate.
    + right. discriminate.
Defined.

(** C9: for a parameter whose annotation is not of the [Optional[T]]
    shape, the [optional] flag of the attribute that [build_attribute]
    returns is true exactly when the parameter has a default; and
    [build_attribute] does return such an attribute when the parameter
    is of kind [POSITIONAL_OR_KEYWORD] and the two providers answer. *)
Theorem build_attribute_optional_iff_default {Serializer : Type}
    (self : @builder.PycksonModelBuilder Serializer) (parameter : Param.t)
    (annotation : pytype) :
  Param.annotation parameter = Some annotation →
  builder.is_optional_type annotation = false →
  (∀ attribute,
      builder.build_attribute self parameter = Ok attribute →
      builder.optional attribute = true ↔ Param.default parameter ≠ None)
  ∧ (∀ serializer parser,
      Param.kind parameter = POSITIONAL_OR_KEYWORD →
      builder.serializer_provider self annotation (builder.cls self) (Param.name parameter)
        = Ok serializer →
      builder.parser_provider self annotation (builder.cls self) (Param.name parameter)
        = Ok parser →
      ∃ attribute,
        builder.build_attribute self parameter = Ok attribute
        ∧ builder.attr_type attribute = annotation
        ∧ builder.parser attribute = parser
        ∧ builder.optional attribute = bool_decide (Param.default parameter ≠ None)).
Proof.
  intros Ha Ho. split.
  - intros attribute. unfold builder.build_attribute. rewrite Ha, Ho.
    case_bool_decide as Hkind; [done|].
    intros (s & _ & H)%bind_Ok. apply bind_Ok in H as (p & _ & H').
    injection H' as <-. simpl. apply bool_decide_eq_true.
  - intros serializer parser Hk Hs Hp.
    rewrite (build_attribute_plain self parameter annotation Ha Hk Ho), Hs, Hp. simpl.
    eexists. repeat split; reflexivity.
Qed.

Lemma build_attribute_optional_iff_default_witness :
  (∀ attribute,
      builder.build_attribute (example_builder Point same_name)
        (Param.mk "label" (Some VNone) (Some (TClass c_str)) POSITIONAL_OR_KEYWORD)
        = Ok attribute →
      builder.optional attribute = true ↔ Some VNone ≠ None)
  ∧ (∀ attribute,
      builder.build_attribute (example_builder Point same_name)
        (Param.mk "x" None (Some (TClass c_int)) POSITIONAL_OR_KEYWORD) = Ok attribute →
      builder.optional attribute = true ↔ @None pyvalue ≠ None)
  ∧ ∃ attribute,
      builder.build_attribute (example_builder Point same_name)
        (Param.mk "x" None (Some (TClass c_int)) POSITIONAL_OR_KEYWORD) = Ok attribute
      ∧ builder.attr_type attribute = TClass c_int
      ∧ builder.parser attribute = example_parser (TClass c_int)
      ∧ builder.optional attribute = false.
Proof.
  split; [|split].
  - apply (proj1 (build_attribute_optional_iff_default (example_builder Point same_name)
                    (Param.mk "label" (Some VNone) (Some (TClass c_str)) POSITIONAL_OR_KEYWORD)
                    (TClass c_str) eq_refl eq_refl)).
  - apply (proj1 (build_attribute_optional_iff_default (example_builder Point same_name)
                    (Param.mk "x" None (Some (TClass c_int)) POSITIONAL_OR_KEYWORD)
                    (TClass c_int) eq_refl eq_refl)).
  - apply (proj2 (build_attribute_optional_iff_default (example_builder Point same_name)
                    (Param.mk "x" None (Some (TClass c_int)) POSITIONAL_OR_KEYWORD)
                    (TClass c_int) eq_refl eq_refl)
             (TClass c_int) (example_parser (TClass c_int)));
      reflexivity.
Defined.

(** [is_optional_type] looks for the null type in the second arm only:
    [Union[None, int]] is not taken as optional. *)
Example is_optional_type_second_arm :
  builder.is_optional_type (TUnion [TClass c_int; TClass c_NoneType]) = true
  ∧ builder.is_optional_type (TUnion [TClass c_NoneType; TClass c_int]) = false
  ∧ builder.is_optional_type (TUnion [TClass c_int; TClass c_str; TClass c_NoneType]) = false.
Proof. repeat split. Qed.

(** C2, on the code: for the parameter [count: Optional[int]] the
    attribute that [build_attribute] returns has the declared type
    [int] and is optional, but its serializer and its parser are the
    ones that the providers give for [str]: the parser refuses the
    integer 5, which the parser that the provider gives for [int]
    accepts. *)
Theorem build_attribute_Optional_int_binds_str_parser :
  ∃ attribute,
    builder.build_attribute (example_builder Counter same_name) count_parameter = Ok attribute
    ∧ builder.is_optional_type (TUnion [TClass c_int; TClass c_NoneType]) = true
    ∧ builder.attr_type attribute = TClass c_int
    ∧ builder.optional attribute = true
    ∧ builder.serializer attribute = TClass c_str
    ∧ example_parser_provider (TClass c_str) Counter "count" = Ok (builder.parser attribute)
    ∧ parse (builder.parser attribute) (VInt 5) =
        Raise (ParserException [Lit dquote; Str (VInt 5); Lit dquote;
                                Lit " is supposed to be a "; Lit "str"; Lit "."])
    ∧ (example_parser_provider (TClass c_int) Counter "count" ≫= λ p, parse p (VInt 5))
        = Ok (VInt 5).
Proof. eexists. repeat split. Qed.

(** ** Further properties of the parsers *)

Section MoreParserLemmas.

Implicit Types (parser sub_parser : Parser) (json_value : pyvalue).

Lemma comprehension_app {A B} (f : A → result B) (l1 l2 : list A) :
  comprehension f (l1 ++ l2) =
  (r1 ← comprehension f l1; r2 ← comprehension f l2; Ok (r1 ++ r2)).
Proof.
  induction l1 as [|x l1 IH]; simpl.
  - by destruct (comprehension f l2).
  - destruct (f x); simpl; [|done]. rewrite IH.
    destruct (comprehension f l1); simpl; [|done].
    by destruct (comprehension f l2).
Qed.

Lemma ListParser_parse_list sub_parser (items : list pyvalue) :
  parse (ListParser sub_parser) (VList items) =
  (parsed ← comprehension (parse sub_parser) items; Ok (VList parsed)).
Proof. done. Qed.

Lemma DefaultEnumParser_parse_str (e : EnumClass) (s : string) :
  parse (DefaultEnumParser e) (VStr s) =
  match getitem (enum_members e) s with
  | Some m => Ok (VEnum e m)
  | None => Raise (ParserException [Lit dquote; Str (VStr s); Lit dquote;
                                    Lit " is not a valid value for "; Lit dquote;
                                    Lit (enum_name e); Lit dquote; Lit " Enum."])
  end.
Proof.
  simpl. destruct (getitem (enum_members e) s) as [m|] eqn:Hg.
  - rewrite bool_decide_true; [done|].
    apply getitem_elem_of in Hg. apply list_elem_of_fmap. by exists (s, m).
  - rewrite bool_decide_false; [done|].
    intros [m Hm]%getitem_is_Some. congruence.
Qed.

Lemma CaseInsensitiveEnumParser_parse_str (lower : string → string) (e : EnumClass)
    (s : string) :
  parse (CaseInsensitiveEnumParser lower e) (VStr s) =
  match last (filter (λ m, lower m = lower s) (enum_iter e)) with
  | Some m => Ok (VEnum e m)
  | None => Raise (ParserException [Lit dquote; Str (VStr s); Lit dquote;
                                    Lit " is not a valid value for "; Lit dquote;
                                    Lit "Enum"; Lit dquote; Lit " Enum."])
  end.
Proof.
  simpl. rewrite lowercase_values_lookup.
  by destruct (last _) as [m|].
Qed.

Lemma union_parse_Ok (value_parsers : list Parser) json_value (w : pyvalue) :
  union_parse value_parsers json_value = Ok w ↔
  ∃ (pre : list Parser) parser post,
    value_parsers = pre ++ parser :: post
    ∧ Forall (λ p, shape_match p json_value = false) pre
    ∧ shape_match parser json_value = true
    ∧ parse parser json_value = Ok w.
Proof.
  split.
  - induction value_parsers as [|p ps IH]; simpl; [done|].
    destruct (shape_match p json_value) eqn:Hm.
    + intros Hp. exists [], p, ps. by repeat split.
    + intros (pre & q & post & -> & Hpre & Hq & Hw)%IH.
      exists (p :: pre), q, post. repeat split; try done. by constructor.
  - intros (pre & p & post & -> & Hpre & Hm & Hw).
    by rewrite union_parse_first_match.
Qed.

End MoreParserLemmas.

Section MoreParserProperties.

Implicit Types (parser sub_parser : Parser) (json_value : pyvalue).

(** X1: [ListParser.parse] returns a value only for a list, and what it
    returns is the list of the items converted one by one by the
    element parser. *)
Theorem ListParser_parse_Ok_iff sub_parser json_value (w : pyvalue) :
  parse (ListParser sub_parser) json_value = Ok w ↔
  ∃ items parsed,
    json_value = VList items ∧ w = VList parsed
    ∧ Forall2 (λ item y, parse sub_parser item = Ok y) items parsed.
Proof.
  split.
  - destruct json_value; try done.
    rewrite ListParser_parse_list.
    destruct (comprehension _ _) as [parsed|] eqn:Hc; simpl; [|done].
    intros [= <-]. exists items, parsed. repeat split. by apply comprehension_Ok.
  - intros (items & parsed & -> & -> & Hall).
    rewrite ListParser_parse_list.
    apply comprehension_Ok in Hall. by rewrite Hall.
Qed.

(** X2: parsing the concatenation of two lists gives the concatenation
    of what parsing each of them gives. *)
Theorem ListParser_parse_app sub_parser (l1 l2 r1 r2 : list pyvalue) :
  parse (ListParser sub_parser) (VList l1) = Ok (VList r1) →
  parse (ListParser sub_parser) (VList l2) = Ok (VList r2) →
  parse (ListParser sub_parser) (VList (l1 ++ l2)) = Ok (VList (r1 ++ r2)).
Proof.
  rewrite !ListParser_parse_list, comprehension_app.
  destruct (comprehension _ l1); simpl; [|done]. intros [= ->].
  destruct (comprehension _ l2); simpl; [|done]. by intros [= ->].
Qed.

Lemma ListParser_parse_app_witness :
  parse (ListParser (BasicParserWithCast c_int)) (VList ([VInt 1] ++ [VBool false; VInt 7])) =
    Ok (VList ([VInt 1] ++ [VInt 0; VInt 7])).
Proof.
  apply (ListParser_parse_app (BasicParserWithCast c_int)); reflexivity.
Defined.

(** X3: when the element parser gives every item back unchanged, so
    does the list parser with the list; in particular a list parser
    over [BasicParser] is the identity on lists. *)
Theorem ListParser_parse_unchanged sub_parser (items : list pyvalue) :
  Forall (λ item, parse sub_parser item = Ok item) items →
  parse (ListParser sub_parser) (VList items) = Ok (VList items).
Proof.
  intros Hall. rewrite ListParser_parse_list.
  assert (Hc : comprehension (parse sub_parser) items = Ok items).
  { apply comprehension_Ok. by apply Forall_Forall2_diag. }
  by rewrite Hc.
Qed.

Lemma ListParser_parse_unchanged_witness :
  parse (ListParser (BasicParserWithCast c_str)) (VList [VStr "a"; VStr "b"]) =
    Ok (VList [VStr "a"; VStr "b"]).
Proof.
  apply (ListParser_parse_unchanged (BasicParserWithCast c_str)).
  repeat constructor.
Defined.

(** X4: [TypingDictParser.parse] on a dict converts the values with the
    value parser and leaves the keys and their order untouched; it has
    no guard, so any other value ends in the [AttributeError] of the
    missing [items] method and not in a [ParserException]. *)
Theorem TypingDictParser_parse_spec (value_parser : Parser) :
  (∀ items w,
      parse (TypingDictParser value_parser) (VDict items) = Ok w ↔
      ∃ parsed, w = VDict parsed
                ∧ parsed.*1 = items.*1
                ∧ Forall2 (λ v y, parse value_parser v = Ok y) items.*2 parsed.*2)
  ∧ (∀ json_value,
      isinstance json_value c_dict = false →
      parse (TypingDictParser value_parser) json_value =
        Raise (AttributeError [Lit "object has no attribute 'items'"])).
Proof.
  split.
  - intros items w. simpl.
    set (f := λ kv : string * pyvalue, parse value_parser kv.2 ≫= λ v, Ok (kv.1, v)).
    assert (Hf : ∀ parsed,
      Forall2 (λ x y, f x = Ok y) items parsed ↔
      parsed.*1 = items.*1 ∧ Forall2 (λ v y, parse value_parser v = Ok y) items.*2 parsed.*2).
    { intros parsed. split.
      - induction 1 as [|[k v] [k' v'] items' parsed' Hxy _ [IH1 IH2]]; simpl; [by split|].
        unfold f in Hxy. simpl in Hxy.
        destruct (parse value_parser v) as [y|] eqn:Hv; simpl in Hxy; [|done].
        injection Hxy as <- <-. split; [by f_equal|by constructor].
      - revert parsed. induction items as [|[k v] items' IH]; intros parsed [Hk Hv].
        + destruct parsed; [constructor|done].
        + destruct parsed as [|[k' v'] parsed']; [done|]. simpl in *.
          injection Hk as -> Hk. inversion Hv as [|? ? ? ? Hy Hrest]; subst.
          constructor; [|by apply IH]. unfold f. simpl. by rewrite Hy. }
    split.
    + destruct (comprehension f items) as [parsed|] eqn:Hc; simpl; [|done].
      intros [= <-]. exists parsed. split; [done|]. by apply Hf, comprehension_Ok.
    + intros (parsed & -> & Hkv). apply Hf, comprehension_Ok in Hkv. by rewrite Hkv.
  - by intros [].
Qed.

Lemma TypingDictParser_parse_spec_witness :
  parse (TypingDictParser (BasicParserWithCast c_int)) (VList [VInt 1]) =
    Raise (AttributeError [Lit "object has no attribute 'items'"]).
Proof.
  apply (proj2 (TypingDictParser_parse_spec (BasicParserWithCast c_int))). reflexivity.
Defined.

(** X5: [DefaultEnumParser.parse] returns a value only for a string
    that is a declared name, and the value is the member declared under
    that name; a value that is not a string is refused, with
    [TypeError] when it is a list or a dict (it cannot be hashed) and
    with [ParserException] otherwise. *)
Theorem DefaultEnumParser_parse_Ok_iff (e : EnumClass) (value w : pyvalue) :
  (parse (DefaultEnumParser e) value = Ok w ↔
     ∃ s m, value = VStr s ∧ w = VEnum e m ∧ getitem (enum_members e) s = Some m)
  ∧ (isinstance value c_str = false →
     parse (DefaultEnumParser e) value =
       if isinstance value c_list then Raise (TypeError [Lit "unhashable type: 'list'"])
       else if isinstance value c_dict then Raise (TypeError [Lit "unhashable type: 'dict'"])
       else Raise (ParserException [Lit dquote; Str value; Lit dquote;
                                    Lit " is not a valid value for "; Lit dquote;
                                    Lit (enum_name e); Lit dquote; Lit " Enum."])).
Proof.
  split; [split|].
  - destruct value as [| | | |s| | |]; try done.
    rewrite DefaultEnumParser_parse_str.
    destruct (getitem _ _) as [m|] eqn:Hg; [|done].
    intros [= <-]. by exists s, m.
  - intros (s & m & -> & -> & Hg). by rewrite DefaultEnumParser_parse_str, Hg.
  - by destruct value.
Qed.

Lemma DefaultEnumParser_parse_Ok_iff_witness :
  parse (DefaultEnumParser Shade) (VList [VStr "DARK"]) =
    Raise (TypeError [Lit "unhashable type: 'list'"])
  ∧ parse (DefaultEnumParser Shade) (VInt 1) =
      Raise (ParserException [Lit dquote; Str (VInt 1); Lit dquote;
                              Lit " is not a valid value for "; Lit dquote;
                              Lit "Shade"; Lit dquote; Lit " Enum."]).
Proof.
  split.
  - apply (proj2 (DefaultEnumParser_parse_Ok_iff Shade (VList [VStr "DARK"]) VNone)).
    reflexivity.
  - apply (proj2 (DefaultEnumParser_parse_Ok_iff Shade (VInt 1) VNone)). reflexivity.
Defined.

(** X6: [CaseInsensitiveEnumParser.parse] returns a value only for a
    string, and the value is a member (no alias) whose name equals the
    string up to case; a value that is not a string has no [lower] and
    ends in [AttributeError]. *)
Theorem CaseInsensitiveEnumParser_parse_Ok_inv (lower : string → string) (e : EnumClass)
    (value w : pyvalue) :
  (parse (CaseInsensitiveEnumParser lower e) value = Ok w →
     ∃ s m, value = VStr s ∧ w = VEnum e m ∧ m ∈ enum_iter e ∧ lower m = lower s
            ∧ (m, m) ∈ enum_members e)
  ∧ (isinstance value c_str = false →
     parse (CaseInsensitiveEnumParser lower e) value =
       Raise (AttributeError [Lit "object has no attribute 'lower'"])).
Proof.
  split.
  - destruct value as [| | | |s| | |]; try done.
    rewrite CaseInsensitiveEnumParser_parse_str.
    destruct (last _) as [m|] eqn:Hm; [|done].
    intros [= <-].
    apply last_Some_elem_of, list_elem_of_filter in Hm as [Hlow Hin].
    exists s, m. repeat split; try done.
    unfold enum_iter in Hin.
    apply list_elem_of_fmap in Hin as ([n m'] & -> & [Heq Hd]%list_elem_of_filter).
    simpl in *. by subst.
  - by destruct value.
Qed.

Lemma CaseInsensitiveEnumParser_parse_Ok_inv_witness :
  (∃ s m, VStr "light" = VStr s ∧ VEnum Shade "LIGHT" = VEnum Shade m ∧ m ∈ enum_iter Shade
          ∧ ascii_lower m = ascii_lower s ∧ (m, m) ∈ enum_members Shade)
  ∧ parse (CaseInsensitiveEnumParser ascii_lower Shade) (VInt 1) =
      Raise (AttributeError [Lit "object has no attribute 'lower'"]).
Proof.
  split.
  - apply (proj1 (CaseInsensitiveEnumParser_parse_Ok_inv ascii_lower Shade (VStr "light")
                    (VEnum Shade "LIGHT"))).
    reflexivity.
  - apply (proj2 (CaseInsensitiveEnumParser_parse_Ok_inv ascii_lower Shade (VInt 1) VNone)).
    reflexivity.
Defined.

(** X7: the answer of [CaseInsensitiveEnumParser.parse] to a string
    depends on the string only through its lowercase form: two strings
    equal up to case are accepted with the same member or both
    refused. *)
Theorem CaseInsensitiveEnumParser_parse_casing (lower : string → string) (e : EnumClass)
    (s1 s2 : string) :
  lower s1 = lower s2 →
  ∀ w, parse (CaseInsensitiveEnumParser lower e) (VStr s1) = Ok w ↔
       parse (CaseInsensitiveEnumParser lower e) (VStr s2) = Ok w.
Proof.
  intros Hlow w. rewrite !CaseInsensitiveEnumParser_parse_str, Hlow.
  by destruct (last _).
Qed.

Lemma CaseInsensitiveEnumParser_parse_casing_witness :
  parse (CaseInsensitiveEnumParser ascii_lower Shade) (VStr "Dark") = Ok (VEnum Shade "DARK") ↔
  parse (CaseInsensitiveEnumParser ascii_lower Shade) (VStr "dARK") = Ok (VEnum Shade "DARK").
Proof.
  apply (CaseInsensitiveEnumParser_parse_casing ascii_lower Shade "Dark" "dARK"). reflexivity.
Defined.



(** X9: [UnionParser.parse] returns a value only when some alternative
    matches the shape of the value, and the value is the one that the
    first matching alternative returns. *)
Theorem UnionParser_parse_Ok_iff (value_parsers : list Parser) json_value (w : pyvalue) :
  parse (UnionParser value_parsers) json_value = Ok w ↔
  ∃ (pre : list Parser) parser post,
    value_parsers = pre ++ parser :: post
    ∧ Forall (λ p, shape_match p json_value = false) pre
    ∧ shape_match parser json_value = true
    ∧ parse parser json_value = Ok w.
Proof. apply union_parse_Ok. Qed.

(** X10: a union over the alternatives of two unions, one after the
    other, answers as the first union when one of its alternatives
    matches the shape of the value, and as the second union
    otherwise. *)
Theorem UnionParser_parse_app (parsers1 parsers2 : list Parser) json_value :
  (Exists (λ p, shape_match p json_value = true) parsers1 →
      parse (UnionParser (parsers1 ++ parsers2)) json_value =
      parse (UnionParser parsers1) json_value)
  ∧ (Forall (λ p, shape_match p json_value = false) parsers1 →
      parse (UnionParser (parsers1 ++ parsers2)) json_value =
      parse (UnionParser parsers2) json_value).
Proof.
  simpl. split.
  - induction 1 as [p ps Hp|p ps _ IH]; simpl.
    + by rewrite Hp.
    + by destruct (shape_match p json_value).
  - induction 1 as [|p ps Hp _ IH]; simpl; [done|]. by rewrite Hp.
Qed.

Lemma UnionParser_parse_app_witness :
  parse (UnionParser ([BasicParserWithCast c_str; ListParser BasicParser]
                      ++ [BasicParserWithCast c_int])) (VList []) =
    parse (UnionParser [BasicParserWithCast c_str; ListParser BasicParser]) (VList [])
  ∧ parse (UnionParser ([BasicParserWithCast c_str; ListParser BasicParser]
                        ++ [BasicParserWithCast c_int])) (VInt 2) =
      parse (UnionParser [BasicParserWithCast c_int]) (VInt 2).
Proof.
  split.
  - apply (proj1 (UnionParser_parse_app [BasicParserWithCast c_str; ListParser BasicParser]
                    [BasicParserWithCast c_int] (VList []))).
    right. left. reflexivity.
  - apply (proj2 (UnionParser_parse_app [BasicParserWithCast c_str; ListParser BasicParser]
                    [BasicParserWithCast c_int] (VInt 2))).
    repeat constructor.
Defined.

(** X11: an enum parser never matches a decoded JSON value in a union:
    the [cls] of [DefaultEnumParser] is the enum class and the one of
    [CaseInsensitiveEnumParser] is [Enum], and only an enum member is
    an instance of them.  A union of enum parsers refuses every string,
    the names of the members included. *)
Theorem UnionParser_of_enum_parsers (value_parsers : list Parser) json_value :
  Forall (λ p, ∃ e, p = DefaultEnumParser e ∨ ∃ lower, p = CaseInsensitiveEnumParser lower e)
         value_parsers →
  (∀ e m, json_value ≠ VEnum e m) →
  parse (UnionParser value_parsers) json_value =
    Raise (TypeError [Str json_value; Lit " is not compatible with Union type in Pyckson."]).
Proof.
  intros Hall Hjson. simpl. apply union_parse_no_match.
  eapply Forall_impl; [exact Hall|].
  intros p [e [-> | [lower ->]]]; unfold shape_match; simpl;
    destruct json_value as [| | | | | | |e' m']; try done; by destruct (Hjson e' m').
Qed.

Lemma UnionParser_of_enum_parsers_witness :
  parse (DefaultEnumParser Shade) (VStr "DARK") = Ok (VEnum Shade "DARK")
  ∧ parse (UnionParser [DefaultEnumParser Shade; CaseInsensitiveEnumParser ascii_lower Shade])
          (VStr "DARK") =
      Raise (TypeError [Str (VStr "DARK");
                        Lit " is not compatible with Union type in Pyckson."]).
Proof.
  split; [reflexivity|].
  apply (UnionParser_of_enum_parsers
           [DefaultEnumParser Shade; CaseInsensitiveEnumParser ascii_lower Shade] (VStr "DARK")).
  - repeat constructor; exists Shade; [by left|right; by exists ascii_lower].
  - discriminate.
Defined.

(** X12: a JSON boolean is an instance of [int], so a union whose first
    matching alternative is the [int] casting parser returns it as the
    integer 0 or 1, also when a [bool] alternative follows. *)
Theorem UnionParser_bool_as_int (pre post : list Parser) (b : bool) :
  Forall (λ p, shape_match p (VBool b) = false) pre →
  parse (UnionParser (pre ++ BasicParserWithCast c_int :: post)) (VBool b) =
    Ok (VInt (if b then 1 else 0)).
Proof.
  intros Hpre. simpl. by rewrite union_parse_first_match.
Qed.

Lemma UnionParser_bool_as_int_witness :
  parse (UnionParser ([BasicParserWithCast c_str]
                      ++ BasicParserWithCast c_int :: [BasicParserWithCast c_bool]))
        (VBool true) = Ok (VInt 1).
Proof.
  apply (UnionParser_bool_as_int [BasicParserWithCast c_str] [BasicParserWithCast c_bool] true).
  repeat constructor.
Defined.

(** X13: for a scalar class, [BasicParserWithCast.parse] returns a
    value exactly for the values whose type is the class, and for the
    booleans when the class is [int]. *)
Theorem BasicParserWithCast_parse_accepts (C : pyclass) json_value :
  scalar C = true →
  (∃ w, parse (BasicParserWithCast C) json_value = Ok w) ↔
  type_of json_value = C ∨ (C = c_int ∧ type_of json_value = c_bool).
Proof.
  intros HC. simpl. split.
  - intros [w Hw].
    destruct C; try discriminate HC; destruct json_value; try discriminate Hw; auto.
  - intros [<-|[-> Hb]].
    + destruct json_value; try discriminate HC; simpl; eauto.
    + destruct json_value; try discriminate Hb; simpl; eauto.
Qed.

Lemma BasicParserWithCast_parse_accepts_witness :
  (∃ w, parse (BasicParserWithCast c_float) (VInt 1) = Ok w) ↔
  type_of (VInt 1) = c_float ∨ (c_float = c_int ∧ type_of (VInt 1) = c_bool).
Proof.
  apply (BasicParserWithCast_parse_accepts c_float (VInt 1)). reflexivity.
Defined.

(** X14: for a scalar class, what [BasicParserWithCast.parse] returns
    is a value that the same parser returns unchanged. *)
Theorem BasicParserWithCast_parse_idempotent (C : pyclass) json_value (w : pyvalue) :
  scalar C = true →
  parse (BasicParserWithCast C) json_value = Ok w →
  parse (BasicParserWithCast C) w = Ok w.
Proof.
  intros HC. simpl.
  destruct C; try discriminate HC; destruct json_value; try done; simpl;
    by intros [= <-].
Qed.

Lemma BasicParserWithCast_parse_idempotent_witness :
  parse (BasicParserWithCast c_int) (VInt 0) = Ok (VInt 0).
Proof.
  apply (BasicParserWithCast_parse_idempotent c_int (VBool false) (VInt 0)); reflexivity.
Defined.

(** X15: a union of casting parsers for scalar classes returns a value
    exactly when the value is an instance of one of the classes, and
    the type of what it returns is the first such class in the declared
    order. *)
Theorem UnionParser_of_casts (classes : list pyclass) json_value :
  Forall (λ c, scalar c = true) classes →
  (∀ w, parse (UnionParser (BasicParserWithCast <$> classes)) json_value = Ok w →
        ∃ (pre : list pyclass) c post,
          classes = pre ++ c :: post
          ∧ Forall (λ c', isinstance json_value c' = false) pre
          ∧ isinstance json_value c = true
          ∧ type_of w = c)
  ∧ (Exists (λ c, isinstance json_value c = true) classes →
        ∃ w, parse (UnionParser (BasicParserWithCast <$> classes)) json_value = Ok w).
Proof.
  intros Hsc. simpl. split.
  - intros w. induction Hsc as [|c cs Hc _ IH]; simpl; [done|].
    unfold shape_match. simpl.
    destruct (isinstance json_value c) eqn:Hi.
    + simpl. intros Hw. exists [], c, cs. repeat split; try done.
      destruct c; try discriminate Hc; destruct json_value; try discriminate Hi;
        simpl in Hw; by injection Hw as <-.
    + intros (pre & c' & post & -> & Hpre & Hi' & Hty)%IH.
      exists (c :: pre), c', post. repeat split; try done. by constructor.
  - intros Hex. induction Hex as [c cs Hi|c cs _ IH]; simpl; unfold shape_match; simpl.
    + rewrite Hi. simpl. apply Forall_cons in Hsc as [Hc _].
      destruct c; try discriminate Hc; destruct json_value; try discriminate Hi;
        simpl; eauto.
    + apply Forall_cons in Hsc as [Hc Hcs].
      destruct (isinstance json_value c) eqn:Hi; [|by apply IH].
      simpl. destruct c; try discriminate Hc; destruct json_value; try discriminate Hi;
        simpl; eauto.
Qed.

Lemma UnionParser_of_casts_witness :
  ∃ w, parse (UnionParser (BasicParserWithCast <$> [c_str; c_float; c_int])) (VInt 3) = Ok w.
Proof.
  apply (proj2 (UnionParser_of_casts [c_str; c_float; c_int] (VInt 3)
                  ltac:(repeat constructor))).
  right. right. left. reflexivity.
Defined.

End MoreParserProperties.

(** ** Further properties of the model builder *)

Section MoreBuilderLemmas.

Import builder.
Context {Serializer : Type}.
Implicit Types (self : @PycksonModelBuilder Serializer) (parameter : Param.t).

(** The loop of [build_model] with its accumulator is a comprehension
    over the parameters other than [self]. *)
Lemma build_model_loop_comprehension self (parameters : list Param.t)
    (attributes : list PycksonAttribute) :
  build_model_loop self parameters attributes =
  (new ← comprehension (build_attribute self)
                       (filter (λ p, Param.name p ≠ "self") parameters);
   Ok (attributes ++ new)).
Proof.
  revert attributes. induction parameters as [|p ps IH]; intros attributes; simpl.
  - by rewrite app_nil_r.
  - case_bool_decide as Hself.
    + rewrite filter_cons_True by done. simpl.
      destruct (build_attribute self p) as [a|e]; simpl; [|done].
      rewrite IH. destruct (comprehension _ _); simpl; [|done].
      by rewrite <- app_assoc.
    + rewrite filter_cons_False by (by intros ?). apply IH.
Qed.

Lemma find_constructor_loop_Ok (members : list (string * member)) (f : member) :
  find_constructor_loop members = Ok f ↔
  ∃ (pre : list (string * member)) post,
    members = pre ++ ("__init__", f) :: post ∧ "__init__" ∉ pre.*1.
Proof.
  split.
  - induction members as [|[n g] members IH]; simpl; [done|].
    case_bool_decide as Hn.
    + intros [= ->]. simpl in Hn. subst. exists [], members. split; [done|].
      simpl. apply not_elem_of_nil.
    + intros (pre & post & -> & Hpre)%IH.
      exists ((n, g) :: pre), post. split; [done|].
      simpl. by apply not_elem_of_cons.
  - intros (pre & post & -> & Hpre).
    induction pre as [|[n g] pre IH]; simpl.
    + done.
    + simpl in Hpre. apply not_elem_of_cons in Hpre as [Hn Hpre].
      rewrite bool_decide_false by done. by apply IH.
Qed.

Lemma build_attribute_Ok_inv self parameter (attribute : PycksonAttribute) :
  build_attribute self parameter = Ok attribute →
  Param.annotation parameter ≠ None ∧ Param.kind parameter = POSITIONAL_OR_KEYWORD.
Proof.
  intros Hb. split.
  - intros Ha. destruct (build_attribute_rejects self parameter (or_introl Ha)). congruence.
  - destruct (decide (Param.kind parameter = POSITIONAL_OR_KEYWORD)) as [|Hk]; [done|].
    destruct (build_attribute_rejects self parameter (or_intror Hk)). congruence.
Qed.

Lemma is_optional_type_inv (param_type : pytype) :
  is_optional_type param_type = true →
  ∃ T arm, param_type = TUnion [T; arm] ∧ isinstance_type VNone arm = true.
Proof.
  destruct param_type as [|union_params|]; simpl; try done.
  destruct union_params as [|T [|arm [|]]]; simpl; try done.
  intros Harm. by exists T, arm.
Qed.

Lemma build_attribute_total self parameter (annotation : pytype) :
  (∀ t n, ∃ s, serializer_provider self t (cls self) n = Ok s) →
  (∀ t n, ∃ p, parser_provider self t (cls self) n = Ok p) →
  Param.annotation parameter = Some annotation →
  Param.kind parameter = POSITIONAL_OR_KEYWORD →
  ∃ attribute, build_attribute self parameter = Ok attribute.
Proof.
  intros Hs Hp Ha Hk.
  destruct (is_optional_type annotation) eqn:Ho.
  - destruct (is_optional_type_inv _ Ho) as (T & arm & -> & Harm).
    rewrite (build_attribute_optional self parameter T arm Ha Hk Harm).
    destruct (Hs (TClass c_str) (Param.name parameter)) as [s ->].
    destruct (Hp (TClass c_str) (Param.name parameter)) as [p ->]. simpl. eauto.
  - rewrite (build_attribute_plain self parameter annotation Ha Hk Ho).
    destruct (Hs annotation (Param.name parameter)) as [s ->].
    destruct (Hp annotation (Param.name parameter)) as [p ->]. simpl. eauto.
Qed.

Lemma build_model_Ok self (model : PycksonModel) :
  build_model self = Ok model ↔
  ∃ parameters,
    find_constructor self = Ok (Function parameters)
    ∧ Forall2 (λ p a, build_attribute self p = Ok a)
              (filter (λ p, Param.name p ≠ "self") parameters) (attributes model).
Proof.
  unfold build_model. split.
  - intros (constructor & Hc & H)%bind_Ok.
    apply bind_Ok in H as (parameters & Hs & H').
    apply bind_Ok in H' as (attrs & Hloop & Hm).
    injection Hm as <-. simpl.
    destruct constructor as [ps|]; [|done]. injection Hs as ->.
    exists parameters. split; [done|].
    rewrite build_model_loop_comprehension in Hloop.
    apply bind_Ok in Hloop as (new & Hnew & Heq). injection Heq as <-.
    by apply comprehension_Ok.
  - intros (parameters & -> & Hall). simpl.
    rewrite build_model_loop_comprehension.
    apply comprehension_Ok in Hall. rewrite Hall. simpl. by destruct model.
Qed.

Lemma NoDup_fmap_filter {A B} (f : A → B) (P : A → Prop) `{∀ x, Decision (P x)}
    (l : list A) :
  NoDup (f <$> l) → NoDup (f <$> filter P l).
Proof.
  induction l as [|x l IH]; simpl; [done|].
  intros [Hx Hl]%NoDup_cons.
  destruct (decide (P x)).
  - rewrite filter_cons_True by done. simpl. apply NoDup_cons. split; [|by apply IH].
    intros (y & Hy & [_ Hin]%list_elem_of_filter)%list_elem_of_fmap.
    apply Hx. rewrite Hy. by apply list_elem_of_fmap_2.
  - rewrite filter_cons_False by done. by apply IH.
Qed.

Lemma build_attributes_names self (parameters : list Param.t)
    (attrs : list PycksonAttribute) :
  Forall2 (λ p a, build_attribute self p = Ok a) parameters attrs →
  python_name <$> attrs = Param.name <$> parameters
  ∧ Forall (λ a, json_name a = name_rule self (python_name a)) attrs.
Proof.
  induction 1 as [|p a ps attrs' Hpa _ [IH1 IH2]]; csimpl; [by split|].
  apply build_attribute_names in Hpa as [Hp Hj]. split.
  - by rewrite Hp, IH1.
  - constructor; [by rewrite Hj, Hp|done].
Qed.

End MoreBuilderLemmas.

Section MoreBuilderProperties.

Import builder.
Context {Serializer : Type}.
Implicit Types (self : @PycksonModelBuilder Serializer) (parameter : Param.t).

(** X16: [is_optional_type] accepts exactly the unions of two arms
    whose second arm has [None] as an instance; a union with the null
    type in the first arm, or with a third arm, is not optional. *)
Theorem is_optional_type_iff (param_type : pytype) :
  is_optional_type param_type = true ↔
  ∃ T arm, param_type = TUnion [T; arm] ∧ isinstance_type VNone arm = true.
Proof.
  split; [apply is_optional_type_inv|].
  intros (T & arm & -> & Harm). simpl. by rewrite Harm.
Qed.

(** X17: for a parameter annotated [Union[T, None]], the attribute that
    [build_attribute] returns carries the name of the parameter, the
    external name that the name rule gives, the declared type [T] and
    the optional flag set, whether the parameter has a default or
    not. *)
Theorem build_attribute_optional_shape self parameter (T arm : pytype)
    (attribute : PycksonAttribute) :
  Param.annotation parameter = Some (TUnion [T; arm]) →
  isinstance_type VNone arm = true →
  build_attribute self parameter = Ok attribute →
  python_name attribute = Param.name parameter
  ∧ json_name attribute = name_rule self (Param.name parameter)
  ∧ attr_type attribute = T
  ∧ optional attribute = true.
Proof.
  intros Ha Harm Hb.
  destruct (build_attribute_Ok_inv self parameter attribute Hb) as [_ Hk].
  rewrite (build_attribute_optional self parameter T arm Ha Hk Harm) in Hb.
  apply bind_Ok in Hb as (s & _ & Hb'). apply bind_Ok in Hb' as (p & _ & Hb'').
  by injection Hb'' as <-.
Qed.

(** X18: the attribute of a parameter is optional exactly when the
    parameter has a default or its annotation is of the optional
    shape. *)
Theorem build_attribute_optional_iff self parameter (attribute : PycksonAttribute) :
  build_attribute self parameter = Ok attribute →
  optional attribute = true ↔
  Param.default parameter ≠ None
  ∨ ∃ annotation, Param.annotation parameter = Some annotation
                  ∧ is_optional_type annotation = true.
Proof.
  intros Hb.
  destruct (build_attribute_Ok_inv self parameter attribute Hb) as [Ha Hk].
  destruct (Param.annotation parameter) as [annotation|] eqn:Hann; [|done].
  destruct (is_optional_type annotation) eqn:Ho.
  - destruct (is_optional_type_inv _ Ho) as (T & arm & -> & Harm).
    rewrite (build_attribute_optional self parameter T arm Hann Hk Harm) in Hb.
    apply bind_Ok in Hb as (s & _ & Hb'). apply bind_Ok in Hb' as (p & _ & Hb'').
    injection Hb'' as <-. simpl.
    split; [|done]. intros _. right. eauto.
  - rewrite (build_attribute_plain self parameter annotation Hann Hk Ho) in Hb.
    apply bind_Ok in Hb as (s & _ & Hb'). apply bind_Ok in Hb' as (p & _ & Hb'').
    injection Hb'' as <-. simpl. rewrite bool_decide_eq_true. split; [by left|].
    intros [Hd|(t & [= <-] & Ht)]; [done|congruence].
Qed.

(** X19: [build_model] returns a model exactly when [find_constructor]
    finds a function and [build_attribute] returns an attribute for
    each of its parameters that is not named [self]; the model then
    holds these attributes, one for each such parameter and in the
    order of the signature. *)
Theorem build_model_Ok_iff self (model : PycksonModel) :
  build_model self = Ok model ↔
  ∃ parameters,
    find_constructor self = Ok (Function parameters)
    ∧ Forall2 (λ p a, build_attribute self p = Ok a)
              (filter (λ p, Param.name p ≠ "self") parameters) (attributes model).
Proof. apply build_model_Ok. Qed.

(** X20: when the two providers answer for every type and name,
    [build_model] returns a model exactly when the class has an
    [__init__] function and each of its parameters other than [self] is
    annotated and of kind [POSITIONAL_OR_KEYWORD]. *)
Theorem build_model_succeeds_iff self :
  (∀ t n, ∃ s, serializer_provider self t (cls self) n = Ok s) →
  (∀ t n, ∃ p, parser_provider self t (cls self) n = Ok p) →
  (∃ model, build_model self = Ok model) ↔
  ∃ parameters,
    find_constructor self = Ok (Function parameters)
    ∧ Forall (λ p, Param.name p ≠ "self" →
                   Param.annotation p ≠ None ∧ Param.kind p = POSITIONAL_OR_KEYWORD)
             parameters.
Proof.
  intros Hs Hp. split.
  - intros [model (parameters & Hc & Hall)%build_model_Ok].
    exists parameters. split; [done|].
    apply Forall_forall. intros p Hin Hself.
    assert (Hf : p ∈ filter (λ p, Param.name p ≠ "self") parameters)
      by (by apply list_elem_of_filter).
    apply list_elem_of_lookup in Hf as [i Hi].
    destruct (Forall2_lookup_l _ _ _ _ _ Hall Hi) as (a & _ & Ha).
    by apply (build_attribute_Ok_inv self p a).
  - intros (parameters & Hc & Hall).
    assert (Hbuild : Forall (λ p, ∃ a, build_attribute self p = Ok a)
                            (filter (λ p, Param.name p ≠ "self") parameters)).
    { apply Forall_forall. intros p [Hself Hin]%list_elem_of_filter.
      rewrite Forall_forall in Hall. destruct (Hall p Hin Hself) as [Ha Hk].
      destruct (Param.annotation p) as [annotation|] eqn:Hann; [|done].
      by apply (build_attribute_total self p annotation). }
    apply comprehension_total in Hbuild as [attrs Hattrs].
    exists (mkModel attrs). apply build_model_Ok. exists parameters.
    split; [done|]. by apply comprehension_Ok.
Qed.

(** X21: [find_constructor] returns the member paired with the first
    name [__init__] in [getmembers(cls)], and raises only when there is
    none. *)
Theorem find_constructor_Ok_iff self (f : member) :
  find_constructor self = Ok f ↔
  ∃ (pre : list (string * member)) post,
    getmembers (cls self) = pre ++ ("__init__", f) :: post ∧ "__init__" ∉ pre.*1.
Proof. apply find_constructor_loop_Ok. Qed.

(** X22: the source names of a built model are the names of the
    parameters other than [self], in the order of the signature; as the
    names of the parameters of a signature are pairwise distinct, so
    are the source names, whatever the name rule. *)
Theorem build_model_python_names self (parameters : list Param.t) (model : PycksonModel) :
  find_constructor self = Ok (Function parameters) →
  build_model self = Ok model →
  python_name <$> attributes model =
    Param.name <$> filter (λ p, Param.name p ≠ "self") parameters
  ∧ length (attributes model) = length (filter (λ p, Param.name p ≠ "self") parameters)
  ∧ (NoDup (Param.name <$> parameters) → NoDup (python_name <$> attributes model)).
Proof.
  intros Hc (parameters' & Hc' & Hall)%build_model_Ok.
  rewrite Hc in Hc'. injection Hc' as <-.
  destruct (build_attributes_names self _ _ Hall) as [Hnames _].
  split; [done|]. split.
  - symmetry. by eapply Forall2_length.
  - intros Hnd. rewrite Hnames. by apply NoDup_fmap_filter.
Qed.

(** X23: in a built model the external name of every attribute is the
    name rule applied to its source name. *)
Theorem build_model_json_names self (model : PycksonModel) :
  build_model self = Ok model →
  Forall (λ a, json_name a = name_rule self (python_name a)) (attributes model).
Proof.
  intros (parameters & _ & Hall)%build_model_Ok.
  by destruct (build_attributes_names self _ _ Hall) as [_ Hjson].
Qed.

End MoreBuilderProperties.

Lemma build_attribute_optional_shape_witness :
  builder.python_name
    (builder.mkAttribute "text" "text" (TClass c_str) true (TClass c_str)
                         (example_parser (TClass c_str))) = "text"
  ∧ builder.json_name
      (builder.mkAttribute "text" "text" (TClass c_str) true (TClass c_str)
                           (example_parser (TClass c_str))) = same_name "text"
  ∧ builder.attr_type
      (builder.mkAttribute "text" "text" (TClass c_str) true (TClass c_str)
                           (example_parser (TClass c_str))) = TClass c_str
  ∧ builder.optional
      (builder.mkAttribute "text" "text" (TClass c_str) true (TClass c_str)
                           (example_parser (TClass c_str))) = true.
Proof.
  apply (build_attribute_optional_shape (example_builder Point same_name) text_parameter
           (TClass c_str) (TClass c_NoneType)); reflexivity.
Defined.

Lemma build_attribute_optional_iff_witness :
  builder.optional
    (builder.mkAttribute "count" "count" (TClass c_int) true (TClass c_str)
                         (example_parser (TClass c_str))) = true ↔
  Param.default count_parameter ≠ None
  ∨ ∃ annotation, Param.annotation count_parameter = Some annotation
                  ∧ builder.is_optional_type annotation = true.
Proof.
  apply (build_attribute_optional_iff (example_builder Counter same_name) count_parameter).
  reflexivity.
Defined.

Lemma build_model_succeeds_iff_witness :
  (∃ model, builder.build_model (example_builder Point same_name) = Ok model) ↔
  ∃ parameters,
    builder.find_constructor (example_builder Point same_name) = Ok (Function parameters)
    ∧ Forall (λ p, Param.name p ≠ "self" →
                   Param.annotation p ≠ None ∧ Param.kind p = POSITIONAL_OR_KEYWORD)
             parameters.
Proof.
  apply (build_model_succeeds_iff (example_builder Point same_name)).
  - intros t n. eexists. reflexivity.
  - intros t n. eexists. reflexivity.
Defined.

Lemma build_model_python_names_witness :
  builder.python_name <$> [
      builder.mkAttribute "x" "X" (TClass c_int) false (TClass c_int)
                          (example_parser (TClass c_int));
      builder.mkAttribute "label" "X" (TClass c_str) true (TClass c_str)
                          (example_parser (TClass c_str))] = ["x"; "label"]
  ∧ NoDup (builder.python_name <$> [
      builder.mkAttribute "x" "X" (TClass c_int) false (TClass c_int)
                          (example_parser (TClass c_int));
      builder.mkAttribute "label" "X" (TClass c_str) true (TClass c_str)
                          (example_parser (TClass c_str))]).
Proof.
  destruct (build_model_python_names (example_builder Point (λ _, "X"))
              [self_parameter;
               Param.mk "x" None (Some (TClass c_int)) POSITIONAL_OR_KEYWORD;
               Param.mk "label" (Some VNone) (Some (TClass c_str)) POSITIONAL_OR_KEYWORD]
              (builder.mkModel [
                 builder.mkAttribute "x" "X" (TClass c_int) false (TClass c_int)
                                     (example_parser (TClass c_int));
                 builder.mkAttribute "label" "X" (TClass c_str) true (TClass c_str)
                                     (example_parser (TClass c_str))])
              eq_refl eq_refl) as (Hn & _ & Hnd).
  split; [exact Hn|]. apply Hnd. by apply (bool_decide_unpack _).
Defined.

Lemma build_model_json_names_witness :
  Forall (λ a, builder.json_name a = camel_case (builder.python_name a))
         [builder.mkAttribute "user_name" "userName" (TClass c_str) false (TClass c_str)
                              (example_parser (TClass c_str));
          builder.mkAttribute "userName" "userName" (TClass c_str) false (TClass c_str)
                              (example_parser (TClass c_str))].
Proof.
  apply (build_model_json_names (example_builder Account camel_case)
           (builder.mkModel [
              builder.mkAttribute "user_name" "userName" (TClass c_str) false (TClass c_str)
                                  (example_parser (TClass c_str));
              builder.mkAttribute "userName" "userName" (TClass c_str) false (TClass c_str)
                                  (example_parser (TClass c_str))])).
  reflexivity.
Defined.
